(** * The Laplace distribution and its log score

    A shallow embedding of the two classes written in the NGBoost developer
    guide [examples/user-guide/content/5-dev.ipynb]: the distribution class
    [Laplace] and the score implementation [LaplaceLogScore].

    Numbers.  The notebook computes with numpy's binary64 values.  The main
    development reads them as real numbers ([R]), with [np.exp], [np.abs]
    and [np.sign] as the real functions of the same name; module [F64]
    re-runs the score on binary64 values, where overflow and underflow
    matter.

    Arrays.  A one-dimensional array is a [list], a two-dimensional one a
    list of rows.  The parameter vector handed to [Laplace] holds one
    scalar per internal parameter; an observation vector [Y] broadcasts
    against these scalars entry by entry. *)

From Stdlib Require Import Reals Lra ZArith List String.
From Stdlib Require Import PrimFloat.
From stdpp Require Import base option list gmap strings.

Open Scope R_scope.

(** ** Exceptions and results *)

Inductive exn : Type :=
  | IndexError
  | AttributeError
  | EstimationError
  | Foreign (name : string).

Inductive result (A : Type) : Type :=
  | Ok (a : A)
  | Raise (e : exn).

Arguments Ok {A} a.
Arguments Raise {A} e.

#[global] Instance result_ret : MRet result := fun A a => Ok a.

#[global] Instance result_bind : MBind result := fun A B k r =>
  match r with
  | Ok a => k a
  | Raise e => Raise e
  end.

(** ** numpy *)

Module np.

(** [np.sign]: -1, 0 or 1. *)
Definition sign (x : R) : R :=
  if Rlt_dec x 0 then -1 else if Rlt_dec 0 x then 1 else 0.

(** [np.zeros((n, m))]. *)
Definition zeros (n m : nat) : list (list R) := replicate n (replicate m 0).

(** [D[:, j] = col], for a vector [col] with one entry per row of [D]. *)
Definition set_column (j : nat) (col : list R) (D : list (list R))
  : list (list R) :=
  zip_with (fun row v => <[j := v]> row) D col.

(** [a[i]] on a one-dimensional array. *)
Definition item (a : list R) (i : nat) : result R :=
  match a !! i with
  | Some x => Ok x
  | None => Raise IndexError
  end.

(** Column [j] of a matrix, for reading results back. *)
Definition column (j : nat) (D : list (list R)) : list R :=
  omap (fun row : list R => row !! j) D.

(** A binary64 value that need not be finite: what [np.log] returns. *)
Inductive float64 : Type :=
  | Real (x : R)
  | PosInf
  | NegInf
  | NaN.

(** [np.log]: minus infinity at 0 and nan below it, with a warning and
    no exception. *)
Definition log (x : R) : float64 :=
  if Rlt_dec 0 x then Real (ln x)
  else if Req_dec_T x 0 then NegInf
  else NaN.

End np.

(** ** scipy.stats.laplace *)

Module scipy.

(** The frozen distribution [laplace(loc=..., scale=...)]. *)
Record rv_frozen : Type := frozen { f_loc : R; f_scale : R }.

(** The density stated in the guide: 1/(2b) * exp(-|x - mu| / b). *)
Definition pdf (d : rv_frozen) (x : R) : R :=
  1 / (2 * f_scale d) * exp (- (Rabs (x - f_loc d) / f_scale d)).

Definition logpdf (d : rv_frozen) (Y : list R) : list R :=
  map (fun y => ln (pdf d y)) Y.

End scipy.

(** ** class Laplace *)

(** The class attribute [n_params]. *)
Definition n_params : nat := 2.

Record Laplace : Type := mkLaplace {
  _params : list R;
  loc : R;
  logscale : R;
  scale : R;
  dist : scipy.rv_frozen
}.

(** [Laplace.__init__(self, params)].  [np.exp] is the real exponential
    here; [F64.__init__] below is the same assignment on binary64 values,
    where [np.exp] can underflow to 0. *)
Definition __init__ (params : list R) : result Laplace :=
  p0 ← np.item params 0;
  p1 ← np.item params 1;
  let s := exp p1 in
  Ok {| _params := params;
        loc := p0;
        logscale := p1;
        scale := s;
        dist := scipy.frozen p0 s |}.

(** The property [Laplace.params]: the dict [{'loc': ..., 'scale': ...}]. *)
Definition params (self : Laplace) : gmap string R :=
  <["scale" := scale self]> (<["loc" := loc self]> ∅).

(** ** class LaplaceLogScore *)

(** [LaplaceLogScore.score(self, Y)]. *)
Definition score (self : Laplace) (Y : list R) : list R :=
  map Ropp (scipy.logpdf (dist self) Y).

(** The score the guide differentiates, in the internal parameters: the
    negative logarithm of the density 1/(2b) * exp(-|y - mu| / b) at
    b = exp(s). *)
Definition nll (mu s y : R) : R := ln 2 + s + Rabs (y - mu) / exp s.

(** [LaplaceLogScore.d_score(self, Y)], as the class is defined last (the
    cell "Putting it all together"). *)
Definition d_score (self : Laplace) (Y : list R) : list (list R) :=
  let D := np.zeros (length Y) 2 in
  let D := np.set_column 0
             (map (fun y => (- np.sign (logscale self - y)) / scale self) Y) D in
  let D := np.set_column 1
             (map (fun y => 1 - Rabs (logscale self - y) / scale self) Y) D in
  D.

(** [LaplaceLogScore.d_score(self, Y)], as the class is defined first (the
    cell that introduces the score). *)
Definition d_score_first (self : Laplace) (Y : list R) : list (list R) :=
  let D := np.zeros (length Y) 2 in
  let D := np.set_column 0
             (map (fun y => np.sign (logscale self - y) / scale self) Y) D in
  let D := np.set_column 1
             (map (fun y => 1 - Rabs (logscale self - y) / scale self) Y) D in
  D.

(** ** Laplace.fit *)

Section Fit.

(** [scipy.stats.laplace.fit(Y)]: the estimate (location, scale), or the
    name of the exception scipy raises. *)
Variable dist_fit : list R -> string + R * R.

(** [Laplace.fit(Y)]. *)
Definition fit (Y : list R) : result (list np.float64) :=
  match dist_fit Y with
  | inl e => Raise (Foreign e)
  | inr (m, s) => Ok [np.Real m; np.log s]
  end.

End Fit.

(** An array of binary64 values read as reals, when every entry is
    finite: what [Laplace.__init__] can take from [Laplace.fit]. *)
Definition finite_array (v : list np.float64) : option (list R) :=
  mapM (fun x => match x with np.Real r => Some r | _ => None end) v.

(** Observations without spread: every entry equals the first one. *)
Definition zero_variance (Y : list R) : Prop :=
  Y <> [] /\ Forall (fun y => y = hd 0 Y) Y.

(** ** Laplace.sample *)

(** Code that reads and advances a piece of global state [G]. *)
Definition state (G A : Type) : Type := G -> A * G.

#[global] Instance state_ret {G} : MRet (state G) := fun A a g => (a, g).

#[global] Instance state_bind {G} : MBind (state G) := fun A B k c g =>
  let '(a, g1) := c g in k a g1.

Section Sample.

(** The state of numpy's process-wide [RandomState]. *)
Variable G : Type.

(** [frozen.rvs()] called without a [random_state]: one draw from the
    process-wide generator. *)
Variable rvs : scipy.rv_frozen -> state G R.

(** [[self.dist.rvs() for i in range(n)]]. *)
Fixpoint comprehension (d : scipy.rv_frozen) (n : nat) : state G (list R) :=
  match n with
  | O => mret []
  | S k => x ← rvs d; xs ← comprehension d k; mret (x :: xs)
  end.

(** [Laplace.sample(self, m)]; [range(m)] is empty for [m <= 0]. *)
Definition sample (self : Laplace) (m : Z) : state G (list R) :=
  comprehension (dist self) (Z.to_nat m).

End Sample.

Section Stream.

Variable G : Type.
Variable rvs : scipy.rv_frozen -> state G R.

(** The state of the generator after [i] calls of [rvs()]. *)
Fixpoint after (d : scipy.rv_frozen) (i : nat) (g : G) : G :=
  match i with
  | O => g
  | S j => after d j (rvs d g).2
  end.

(** The values of the calls number [first] to [first + count - 1] of
    [rvs()], counted from the generator state [g]. *)
Definition draws (d : scipy.rv_frozen) (first count : nat) (g : G) : list R :=
  map (fun i => (rvs d (after d i g)).1) (seq first count).

End Stream.

(** A generator for examples: the state is a counter, and a draw returns
    loc + scale * counter. *)
Definition counter_rvs (d : scipy.rv_frozen) : state Z R :=
  fun g => (scipy.f_loc d + scipy.f_scale d * IZR g, (g + 1)%Z).

(** ** Attribute access *)

Module py.

Inductive value : Type :=
  | VNone
  | VFloat (x : R)
  | VArray (a : list R)
  | VDict (m : gmap string R)
  | VFrozen (d : scipy.rv_frozen)
  | VMethod (cls name : string)
  | VClassAttr (cls name : string)
  | VForwarded (owner : value) (name : string).

(** What a class body binds a name to.  A property is a data descriptor:
    it is consulted before the instance dictionary. *)
Inductive member : Type :=
  | Function
  | Property (getter : Laplace -> value)
  | ClassAttr.

Record class : Type := mkClass {
  cname : string;
  namespace : gmap string member
}.

(** The instance dictionary that [Laplace.__init__] fills. *)
Definition __dict__ (self : Laplace) : gmap string value :=
  <["dist" := VFrozen (dist self)]>
  (<["scale" := VFloat (scale self)]>
  (<["logscale" := VFloat (logscale self)]>
  (<["loc" := VFloat (loc self)]>
  (<["_params" := VArray (_params self)]> ∅)))).

(** The first class of the resolution order that binds [name]. *)
Fixpoint mro_lookup (mro : list class) (name : string)
  : option (string * member) :=
  match mro with
  | [] => None
  | c :: rest =>
      match namespace c !! name with
      | Some m => Some (cname c, m)
      | None => mro_lookup rest name
      end
  end.

(** The value a class member yields when read through an instance. *)
Definition member_value (self : Laplace) (c name : string) (m : member)
  : value :=
  match m with
  | Function => VMethod c name
  | Property getter => getter self
  | ClassAttr => VClassAttr c name
  end.

(** [object.__getattribute__]: data descriptors of the type, then the
    instance dictionary, then the other members of the type. *)
Definition getattribute (mro : list class) (self : Laplace) (name : string)
  : result value :=
  match mro_lookup mro name with
  | Some (c, Property getter) => Ok (getter self)
  | found =>
      match __dict__ self !! name with
      | Some v => Ok v
      | None =>
          match found with
          | Some (c, m) => Ok (member_value self c name m)
          | None => Raise AttributeError
          end
      end
  end.

Section Getattr.

(** The builtin [dir]. *)
Variable dir : value -> list string.

(** [self.name].  When the ordinary lookup raises [AttributeError] and
    the type defines [__getattr__], [Laplace.__getattr__(self, name)]
    runs ([Laplace] is the only class here that defines one); its
    [self.dist] is an attribute access again.  [None] is a lookup that
    has not returned within [fuel] nested accesses. *)
Fixpoint getattr (fuel : nat) (mro : list class) (self : Laplace)
    (name : string) : option (result value) :=
  match fuel with
  | O => None
  | S k =>
      match getattribute mro self name with
      | Raise AttributeError =>
          match mro_lookup mro "__getattr__" with
          | Some _ =>
              match getattr k mro self "dist" with
              | None => None
              | Some (Raise e) => Some (Raise e)
              | Some (Ok d) =>
                  if bool_decide (name ∈ dir d)
                  then Some (Ok (VForwarded d name))
                  else Some (Ok VNone)
              end
          | None => Some (Raise AttributeError)
          end
      | r => Some r
      end
  end.

End Getattr.

(** The class bodies of the guide. *)
Definition Laplace_class : class :=
  mkClass "Laplace"
    (<["n_params" := ClassAttr]>
    (<["scores" := ClassAttr]>
    (<["__init__" := Function]>
    (<["fit" := Function]>
    (<["sample" := Function]>
    (<["__getattr__" := Function]>
    (<["params" := Property (fun self => VDict (params self))]> ∅))))))).

Definition LaplaceLogScore_class : class :=
  mkClass "LaplaceLogScore"
    (<["score" := Function]> (<["d_score" := Function]> ∅)).

(** [Laplace] with the classes it inherits from ([RegressionDistn] and
    what lies above it). *)
Definition Laplace_mro (distn_bases : list class) : list class :=
  Laplace_class :: distn_bases.

(** Modelled from the spec: the type the Compositor synthesizes (step 4
    of [resolve]), which the guide only describes.  It has the state and
    methods of the distribution instance plus the evaluation methods of
    the score implementation, the score side first in the resolution
    order. *)
Definition Fused_mro (score_bases distn_bases : list class) : list class :=
  (LaplaceLogScore_class :: score_bases) ++ Laplace_mro distn_bases.

(** The names of the three evaluation methods. *)
Definition evaluation_methods : list string := ["score"; "d_score"; "metric"].

(** The names [Laplace.__init__] assigns on the instance. *)
Definition instance_attributes : list string :=
  ["_params"; "loc"; "logscale"; "scale"; "dist"].

End py.

(** ** The cells of the guide as class definitions *)

Module nb.

(** What the body of a [class] statement of the guide contains: nothing
    ([pass]), the score methods with the first or the final [d_score], or
    the body of [Laplace].  [Imported] marks an object bound by an import. *)
Inductive body : Type :=
  | Imported
  | Pass
  | ScoreFirst
  | ScoreFinal
  | DistnBody.

(** An object a cell creates: its name, the objects it was derived from,
    its body, and the objects its [scores] list holds when the body
    assigns one.  Objects refer to each other by their position in the
    heap. *)
Record class_obj : Type := mkObj {
  co_name : string;
  co_bases : list nat;
  co_body : body;
  co_scores : option (list nat)
}.

(** The statements that bind names: an import, and
    [class name(bases): body] with the names listed in [scores = [...]]. *)
Inductive stmt : Type :=
  | Import (name : string)
  | ClassDef (name : string) (bases : list string) (b : body)
      (scores : option (list string)).

(** The kernel state: the objects created so far and the global names
    bound to them. *)
Record kernel : Type := mkKernel {
  heap : list class_obj;
  globals : gmap string nat
}.

(** Evaluating a list of global names; [None] when one is unbound. *)
Definition names (g : gmap string nat) (l : list string) : option (list nat) :=
  mapM (fun n => g !! n) l.

(** A new object, and the name rebound to it. *)
Definition bind_new (k : kernel) (name : string) (o : class_obj) : kernel :=
  {| heap := heap k ++ [o];
     globals := <[name := length (heap k)]> (globals k) |}.

(** Executing one statement.  The bases and the entries of [scores] are
    evaluated when the class is created. *)
Definition exec (k : kernel) (s : stmt) : result kernel :=
  match s with
  | Import name => Ok (bind_new k name (mkObj name [] Imported None))
  | ClassDef name bases b scores =>
      match names (globals k) bases with
      | None => Raise (Foreign "NameError")
      | Some bs =>
          match scores with
          | None => Ok (bind_new k name (mkObj name bs b None))
          | Some l =>
              match names (globals k) l with
              | None => Raise (Foreign "NameError")
              | Some sc => Ok (bind_new k name (mkObj name bs b (Some sc)))
              end
          end
      end
  end.

Fixpoint run (k : kernel) (prog : list stmt) : result kernel :=
  match prog with
  | [] => Ok k
  | s :: rest => k1 ← exec k s; run k1 rest
  end.

(** The name a statement binds. *)
Definition stmt_name (s : stmt) : string :=
  match s with
  | Import name => name
  | ClassDef name _ _ _ => name
  end.

(** The object a global name is bound to. *)
Definition class_of (k : kernel) (name : string) : option class_obj :=
  r ← globals k !! name; heap k !! r.

(** [cls.scores], as the objects the list holds. *)
Definition registered_scores (k : kernel) (cls : string)
  : option (list class_obj) :=
  o ← class_of k cls;
  sc ← co_scores o;
  mapM (fun r => heap k !! r) sc.

(** The first code cell: the imports, the placeholder score class and
    [Laplace]. *)
Definition cell_distribution : list stmt :=
  [ Import "dist"; Import "np"; Import "RegressionDistn"; Import "LogScore";
    ClassDef "LaplaceLogScore" ["LogScore"] Pass None;
    ClassDef "Laplace" ["RegressionDistn"] DistnBody
      (Some ["LaplaceLogScore"]) ].

(** The cell that introduces the score. *)
Definition cell_score : list stmt :=
  [ ClassDef "LaplaceLogScore" ["LogScore"] ScoreFirst None ].

(** The cell "Putting it all together". *)
Definition cell_together : list stmt :=
  [ ClassDef "LaplaceLogScore" ["LogScore"] ScoreFinal None;
    ClassDef "Laplace" ["RegressionDistn"] DistnBody
      (Some ["LaplaceLogScore"]) ].

(** The cell "Adding Scores". *)
Definition cell_spherical : list stmt :=
  [ Import "Score"; ClassDef "SphericalScore" ["Score"] Pass None ].

End nb.

(** ** The score on binary64 values *)

Module F64.

Open Scope float_scope.

Section Libm.

(** [np.exp] and [np.log] on binary64: routines of the C library. *)
Variable np_exp : float -> float.
Variable np_log : float -> float.

(** The numeric attributes [Laplace.__init__] stores, on binary64
    values. *)
Record Laplace : Type := mkLaplace {
  loc : float;
  logscale : float;
  scale : float
}.

Definition __init__ (p0 p1 : float) : Laplace :=
  {| loc := p0; logscale := p1; scale := np_exp p1 |}.

(** [frozen.logpdf(y)] as scipy's [rv_continuous.logpdf] computes it for
    [laplace]: standardize to z = (y - loc) / scale; answer nan unless the
    scale is positive and z is a number; answer minus infinity for an
    infinite z, which is outside the support; else take the logarithm of
    the standard density 0.5 * exp(-|z|) and subtract log(scale). *)
Definition logpdf (l s y : float) : float :=
  let z := (y - l) / s in
  if (0 <? s) && negb (is_nan z)
  then if is_infinity z then neg_infinity
       else np_log (0.5 * np_exp (- abs z)) - np_log s
  else nan.

(** [LaplaceLogScore.score(self, Y)]. *)
Definition score (self : Laplace) (Y : list float) : list float :=
  map (fun y => - logpdf (loc self) (scale self) y) Y.

End Libm.

(** binary64 [exp] rounds to +0 once its argument is below the logarithm
    of half the smallest subnormal (about -745.13). *)
Definition underflows (np_exp : float -> float) : Prop :=
  forall x, (x <? -746) = true -> np_exp x = 0.

Definition all_finite (l : list float) : bool := forallb is_finite l.

End F64.

(** * Properties *)

(** ** numpy helpers *)

Lemma sign_neg (x : R) : x < 0 -> np.sign x = -1.
Proof. intros H. unfold np.sign. destruct (Rlt_dec x 0); [reflexivity | lra]. Qed.

Lemma sign_pos (x : R) : 0 < x -> np.sign x = 1.
Proof.
  intros H. unfold np.sign.
  destruct (Rlt_dec x 0); [lra |]. destruct (Rlt_dec 0 x); [reflexivity | lra].
Qed.

Lemma sign_zero : np.sign 0 = 0.
Proof.
  unfold np.sign.
  destruct (Rlt_dec 0 0); [lra |]. destruct (Rlt_dec 0 0); [lra | reflexivity].
Qed.

Lemma sign_odd (x : R) : np.sign (- x) = - np.sign x.
Proof.
  destruct (Rtotal_order x 0) as [H | [H | H]].
  - rewrite (sign_neg x H), (sign_pos (- x)); lra.
  - subst x. rewrite Ropp_0, sign_zero. lra.
  - rewrite (sign_pos x H), (sign_neg (- x)); lra.
Qed.

(** Filling the two columns of the zero matrix row by row. *)
Lemma set_columns_rows {A : Type} (f g : A -> R) (Y : list A) :
  np.set_column 1 (map g Y) (np.set_column 0 (map f Y) (np.zeros (length Y) 2))
  = map (fun y => [f y; g y]) Y.
Proof.
  unfold np.set_column, np.zeros.
  induction Y as [| y Y IH]; [reflexivity |].
  cbn [length map replicate zip_with]. f_equal. exact IH.
Qed.

Lemma d_score_rows (self : Laplace) (Y : list R) :
  d_score self Y
  = map (fun y => [(- np.sign (logscale self - y)) / scale self;
                   1 - Rabs (logscale self - y) / scale self]) Y.
Proof. unfold d_score. apply set_columns_rows. Qed.

Lemma d_score_first_rows (self : Laplace) (Y : list R) :
  d_score_first self Y
  = map (fun y => [np.sign (logscale self - y) / scale self;
                   1 - Rabs (logscale self - y) / scale self]) Y.
Proof. unfold d_score_first. apply set_columns_rows. Qed.

(** The matrix [d_score] returns has one row per observation and two
    columns. *)
Lemma d_score_shape (self : Laplace) (Y : list R) :
  length (d_score self Y) = length Y
  /\ Forall (fun row => length row = n_params) (d_score self Y).
Proof.
  rewrite d_score_rows. split.
  - apply length_map.
  - apply Forall_forall. intros row Hrow.
    apply list_elem_of_In, in_map_iff in Hrow. destruct Hrow as [y [<- _]].
    reflexivity.
Qed.

(** ** Construction *)

Lemma init_two (p0 p1 : R) :
  __init__ [p0; p1]
  = Ok (mkLaplace [p0; p1] p0 p1 (exp p1) (scipy.frozen p0 (exp p1))).
Proof. reflexivity. Qed.

(** ** The score is the negative log-likelihood *)

Lemma ln_pdf (l s y : R) :
  0 < s -> ln (scipy.pdf (scipy.frozen l s) y) = - (ln 2 + ln s + Rabs (y - l) / s).
Proof.
  intros Hs. unfold scipy.pdf. cbn [scipy.f_loc scipy.f_scale].
  rewrite ln_mult.
  - rewrite ln_exp. unfold Rdiv at 1. rewrite Rmult_1_l, ln_Rinv by lra.
    rewrite ln_mult by lra. lra.
  - apply Rdiv_lt_0_compat; lra.
  - apply exp_pos.
Qed.

Lemma score_nll (p0 p1 : R) (self : Laplace) (Y : list R) :
  __init__ [p0; p1] = Ok self -> score self Y = map (nll p0 p1) Y.
Proof.
  rewrite init_two. intros [= <-]. unfold score, scipy.logpdf. cbn [dist].
  rewrite map_map. apply map_ext. intros y.
  rewrite ln_pdf by apply exp_pos. rewrite ln_exp. unfold nll. lra.
Qed.

(** ** The partial derivatives of the score *)

(** With respect to log(scale): 1 - |y - mu| / b. *)
Lemma nll_partial_logscale (mu y s : R) :
  derivable_pt_lim (fun t => nll mu t y) s (1 - Rabs (y - mu) / exp s).
Proof.
  set (a := Rabs (y - mu)).
  apply derivable_pt_lim_ext with
    (f := (fct_cte (ln 2) + id + mult_real_fct a (comp exp (- id)))%F).
  - intros t. unfold nll, plus_fct, fct_cte, id, mult_real_fct, comp, opp_fct.
    fold a. rewrite exp_Ropp. reflexivity.
  - replace (1 - a / exp s) with (0 + 1 + a * (exp (- s) * - 1)).
    + apply derivable_pt_lim_plus.
      * apply derivable_pt_lim_plus;
          [apply derivable_pt_lim_const | apply derivable_pt_lim_id].
      * apply derivable_pt_lim_scal.
        apply (derivable_pt_lim_comp (- id)%F exp).
        -- apply derivable_pt_lim_opp, derivable_pt_lim_id.
        -- apply derivable_pt_lim_exp.
    + rewrite exp_Ropp. unfold Rdiv. lra.
Qed.

(** With respect to loc, away from the kink: sign(mu - y) / b. *)
Lemma nll_partial_loc (mu y s : R) :
  y <> mu ->
  derivable_pt_lim (fun m => nll m s y) mu (np.sign (mu - y) / exp s).
Proof.
  intros Hne.
  apply derivable_pt_lim_ext with
    (f := (fct_cte (ln 2 + s)
           + mult_real_fct (/ exp s) (comp Rabs (fct_cte y - id)))%F).
  - intros m. unfold nll, plus_fct, fct_cte, id, mult_real_fct, comp, minus_fct.
    unfold Rdiv. lra.
  - assert (Hd : derivable_pt_lim (fct_cte y - id)%F mu (0 - 1)).
    { apply derivable_pt_lim_minus;
        [apply derivable_pt_lim_const | apply derivable_pt_lim_id]. }
    destruct (Rtotal_order y mu) as [H | [H | H]]; [| contradiction |].
    + rewrite sign_pos by lra.
      replace (1 / exp s) with (0 + / exp s * (-1 * (0 - 1)))
        by (unfold Rdiv; lra).
      apply derivable_pt_lim_plus; [apply derivable_pt_lim_const |].
      apply derivable_pt_lim_scal.
      apply (derivable_pt_lim_comp (fct_cte y - id)%F Rabs); [exact Hd |].
      apply Rabs_derive_2. unfold minus_fct, fct_cte, id. lra.
    + rewrite sign_neg by lra.
      replace (-1 / exp s) with (0 + / exp s * (1 * (0 - 1)))
        by (unfold Rdiv; lra).
      apply derivable_pt_lim_plus; [apply derivable_pt_lim_const |].
      apply derivable_pt_lim_scal.
      apply (derivable_pt_lim_comp (fct_cte y - id)%F Rabs); [exact Hd |].
      apply Rabs_derive_1. unfold minus_fct, fct_cte, id. lra.
Qed.

(** ** The gradient the score class returns *)

(** C1.  With internal parameters (0, 0), that is loc = 0 and scale = 1,
    the score at Y = 0 is log 2.  At Y = 1 the derivative of the score in
    loc is sign(loc - Y) / scale = -1, and the first definition of
    [d_score] in the guide returns it; the definition that is in force
    returns +1 in column 0.  At every Y it returns the negation of
    sign(loc - Y) / scale: the sign is flipped. *)
Theorem d_score_loc_sign_flipped :
  exists self,
    __init__ [0; 0] = Ok self
    /\ score self [0] = [ln 2]
    /\ derivable_pt_lim (fun m => nll m 0 1) 0 (-1)
    /\ np.sign (loc self - 1) / scale self = -1
    /\ np.column 0 (d_score_first self [1]) = [-1]
    /\ np.column 0 (d_score self [1]) = [1]
    /\ forall y, np.column 0 (d_score self [y])
                 = [- (np.sign (loc self - y) / scale self)].
Proof.
  eexists. split; [apply init_two |].
  assert (Hs : np.sign (0 - 1) = -1) by (apply sign_neg; lra).
  split; [| split; [| split; [| split; [| split]]]].
  - rewrite (score_nll 0 0) by apply init_two. cbn [map]. unfold nll.
    rewrite Rminus_diag, Rabs_R0, exp_0. f_equal. lra.
  - replace (-1) with (np.sign (0 - 1) / exp 0) by (rewrite Hs, exp_0; lra).
    apply nll_partial_loc. lra.
  - cbn [loc scale]. rewrite Hs, exp_0. lra.
  - rewrite d_score_first_rows. cbn. rewrite Hs, exp_0. do 2 f_equal. lra.
  - rewrite d_score_rows. cbn. rewrite Hs, exp_0. do 2 f_equal. lra.
  - intros y. rewrite d_score_rows. cbn. do 2 f_equal. unfold Rdiv. lra.
Qed.

(** C2.  [d_score] returns one row per observation and two columns, but
    both columns are computed from [logscale - Y], not from [loc - Y].
    With loc = 2, scale = 1 and Y = 3 the derivative of the score in
    log(scale) is 1 - |Y - loc| / scale = 0 and the one in loc is -1; the
    code returns the row (1, -2). *)
Theorem d_score_reads_logscale_for_loc :
  exists self,
    __init__ [2; 0] = Ok self
    /\ (forall Y, length (d_score self Y) = length Y
                  /\ Forall (fun row => length row = n_params) (d_score self Y))
    /\ derivable_pt_lim (fun m => nll m 0 3) 2 (-1)
    /\ derivable_pt_lim (fun s => nll 2 s 3) 0 0
    /\ 1 - Rabs (3 - loc self) / scale self = 0
    /\ d_score self [3] = [[1; -2]].
Proof.
  eexists. split; [apply init_two |].
  assert (Hs : np.sign (0 - 3) = -1) by (apply sign_neg; lra).
  assert (Ha : Rabs (3 - 2) = 1) by (rewrite Rabs_pos_eq; lra).
  repeat split.
  - apply d_score_shape.
  - apply d_score_shape.
  - replace (-1) with (np.sign (2 - 3) / exp 0).
    + apply nll_partial_loc. lra.
    + rewrite sign_neg, exp_0; lra.
  - replace 0 with (1 - Rabs (3 - 2) / exp 0) at 2.
    + apply nll_partial_logscale.
    + rewrite Ha, exp_0. lra.
  - cbn [loc scale]. rewrite Ha, exp_0. lra.
  - rewrite d_score_rows. cbn. rewrite Hs, exp_0.
    replace (Rabs (0 - 3)) with 3 by (rewrite Rabs_left; lra).
    do 2 f_equal; [lra |]. f_equal. lra.
Qed.

(** ** Construction and the user-facing parameters *)

(** C10, as the code has it.  For a parameter vector of length 2 the
    constructor succeeds, keeps the vector as [_params], and sets
    scale = exp(params[1]), which is what the wrapped distribution
    receives.  In real arithmetic, which is what this statement is about,
    that scale is strictly positive. *)
Theorem init_establishes_positive_scale (ps : list R) :
  length ps = 2%nat ->
  exists self,
    __init__ ps = Ok self
    /\ _params self = ps
    /\ ps !! 0%nat = Some (loc self)
    /\ ps !! 1%nat = Some (logscale self)
    /\ scale self = exp (logscale self)
    /\ 0 < scale self
    /\ dist self = scipy.frozen (loc self) (scale self).
Proof.
  intros Hlen.
  destruct ps as [| p0 [| p1 [| p2 rest]]]; try discriminate Hlen.
  eexists. split; [apply init_two |].
  cbn [_params loc logscale scale dist]. repeat split. apply exp_pos.
Qed.

Lemma init_establishes_positive_scale_witness :
  exists self,
    __init__ [0; 0] = Ok self
    /\ _params self = [0; 0]
    /\ [0; 0] !! 0%nat = Some (loc self)
    /\ [0; 0] !! 1%nat = Some (logscale self)
    /\ scale self = exp (logscale self)
    /\ 0 < scale self
    /\ dist self = scipy.frozen (loc self) (scale self).
Proof. apply (init_establishes_positive_scale [0; 0]). reflexivity. Defined.

(** On binary64 values the stored scale is 0 whenever the log-scale is
    below the point where [np.exp] underflows. *)
Lemma scale_zero_below_underflow (np_exp : float -> float) (p0 p1 : float) :
  F64.underflows np_exp ->
  (p1 <? -746)%float = true ->
  F64.scale (F64.__init__ np_exp p0 p1) = 0%float
  /\ (0 <? F64.scale (F64.__init__ np_exp p0 p1))%float = false.
Proof.
  intros Hu Hp. cbn [F64.__init__ F64.scale]. rewrite (Hu p1 Hp).
  split; reflexivity.
Qed.

(** C10, as stated, fails: on binary64 values the scale that the
    constructor computes for log-scale = -1000 is 0, not a positive
    number, whatever C library computes [np.exp]. *)
Lemma scale_not_positive_for_small_logscale :
  ~ (forall np_exp : float -> float,
       F64.underflows np_exp ->
       forall p0 p1 : float,
         (0 <? F64.scale (F64.__init__ np_exp p0 p1))%float = true).
Proof.
  intros H.
  set (flush := fun x : float => if (x <? -746)%float then 0%float else 1%float).
  assert (Hu : F64.underflows flush).
  { intros x Hx. unfold flush. rewrite Hx. reflexivity. }
  specialize (H flush Hu 0%float (-1000)%float).
  destruct (scale_zero_below_underflow flush 0 (-1000) Hu eq_refl) as [_ Hz].
  rewrite Hz in H. discriminate H.
Qed.

(** C3.  Constructing [Laplace] from (mu, log b) with b > 0 and reading
    [params] gives back loc = mu and scale = b: the location channel is
    passed through and the log-scale channel is exponentiated. *)
Theorem params_round_trip (mu b : R) :
  0 < b ->
  exists self,
    __init__ [mu; ln b] = Ok self
    /\ params self = <["scale" := b]> (<["loc" := mu]> ∅)
    /\ params self !! "loc" = Some mu
    /\ params self !! "scale" = Some b.
Proof.
  intros Hb. eexists. split; [apply init_two |].
  unfold params. cbn [loc scale]. rewrite exp_ln by exact Hb.
  repeat split.
Qed.

Lemma params_round_trip_witness :
  exists self,
    __init__ [0; ln 1] = Ok self
    /\ params self = <["scale" := 1]> (<["loc" := 0]> ∅)
    /\ params self !! "loc" = Some 0
    /\ params self !! "scale" = Some 1.
Proof. apply (params_round_trip 0 1). lra. Defined.

(** ** Fitting *)

Lemma log_positive (s : R) : 0 < s -> np.log s = np.Real (ln s).
Proof. intros H. unfold np.log. destruct (Rlt_dec 0 s); [reflexivity | lra]. Qed.

Lemma log_zero : np.log 0 = np.NegInf.
Proof.
  unfold np.log. destruct (Rlt_dec 0 0); [lra |].
  destruct (Req_dec_T 0 0); [reflexivity | lra].
Qed.

(** C4, as the code has it.  [Laplace.fit] raises no [EstimationError].
    Whenever scipy's fit returns an estimate (m, s) it returns the vector
    [m, np.log(s)]: [m, ln s] for s > 0, and [m, -inf] for the degenerate
    estimate s = 0. *)
Theorem fit_returns_log_of_estimate
    (dist_fit : list R -> string + R * R) (Y : list R) :
  fit dist_fit Y <> Raise EstimationError
  /\ forall m s,
       dist_fit Y = inr (m, s) ->
       fit dist_fit Y = Ok [np.Real m; np.log s]
       /\ (0 < s -> fit dist_fit Y = Ok [np.Real m; np.Real (ln s)])
       /\ (s = 0 -> fit dist_fit Y = Ok [np.Real m; np.NegInf]).
Proof.
  unfold fit. split.
  - destruct (dist_fit Y) as [e | [m s]]; discriminate.
  - intros m s ->. split; [reflexivity |]. split.
    + intros Hs. rewrite log_positive by exact Hs. reflexivity.
    + intros ->. rewrite log_zero. reflexivity.
Qed.

Lemma fit_returns_log_of_estimate_witness :
  fit (fun _ => inr (2, 1)) [1; 3] <> Raise EstimationError
  /\ fit (fun _ => inr (2, 1)) [1; 3] = Ok [np.Real 2; np.Real (ln 1)].
Proof.
  destruct (fit_returns_log_of_estimate (fun _ => inr (2, 1)) [1; 3])
    as [Hne Hret].
  split; [exact Hne |].
  destruct (Hret 2 1 eq_refl) as [_ [Hpos _]].
  apply Hpos. lra.
Defined.

(** Three equal observations, for which the maximum-likelihood estimate
    is their common value with scale 0: [fit] returns [3, -inf]. *)
Lemma fit_constant_observations :
  zero_variance [3; 3; 3]
  /\ fit (fun _ => inr (3, 0)) [3; 3; 3] = Ok [np.Real 3; np.NegInf].
Proof.
  split.
  - split; [discriminate |]. repeat constructor.
  - unfold fit. rewrite log_zero. reflexivity.
Qed.

(** C4, as stated, fails: for the zero-variance observations (3, 3, 3),
    where the estimate is location 3 and scale 0, [fit] returns the vector
    [3, -inf] and raises nothing. *)
Lemma fit_zero_variance_does_not_raise :
  ~ (forall (dist_fit : list R -> string + R * R) (Y : list R),
       zero_variance Y -> fit dist_fit Y = Raise EstimationError).
Proof.
  intros H.
  destruct fit_constant_observations as [Hz Hfit].
  specialize (H (fun _ => inr (3, 0)) [3; 3; 3] Hz).
  rewrite Hfit in H. discriminate H.
Qed.

(** ** Finiteness of the score *)

Lemma nll_at_loc (mu s : R) : nll mu s mu = ln 2 + s.
Proof. unfold nll. rewrite Rminus_diag, Rabs_R0. unfold Rdiv. lra. Qed.

(** C5, as the code has it.  Over the reals the score is, entry by entry,
    the negative log-likelihood log 2 + log-scale + |Y - loc| / scale, for
    every loc, log-scale and Y.  Nothing clamps it: at Y = loc it falls
    below any bound as the scale goes to 0. *)
Theorem score_is_unclamped_nll (p0 p1 : R) (Y : list R) :
  exists self,
    __init__ [p0; p1] = Ok self
    /\ score self Y = map (fun y => ln 2 + p1 + Rabs (y - p0) / exp p1) Y
    /\ forall bound : R,
         exists s self',
           __init__ [p0; s] = Ok self'
           /\ exists v, score self' [p0] = [v] /\ v < bound.
Proof.
  eexists. split; [apply init_two |]. split.
  - rewrite (score_nll p0 p1) by apply init_two. reflexivity.
  - intros bound. exists (bound - 1). eexists. split; [apply init_two |].
    exists (ln 2 + (bound - 1)). split.
    + rewrite (score_nll p0 (bound - 1)) by apply init_two.
      cbn [map]. rewrite nll_at_loc. reflexivity.
    + assert (ln 2 < 1); [| lra].
      rewrite <- ln_exp. apply ln_increasing; [lra |]. apply exp_ineq1. lra.
Qed.

(** On binary64 values: once [np.exp] has underflowed to 0 the scale is 0
    and the score of an observation at loc is nan. *)
Lemma score_nan_on_underflow (np_exp np_log : float -> float) :
  F64.underflows np_exp ->
  F64.score np_exp np_log (F64.__init__ np_exp 0 (-1000)) [0%float] = [nan].
Proof.
  intros Hu. unfold F64.score, F64.__init__, F64.logpdf.
  cbn [F64.loc F64.scale map]. rewrite (Hu (-1000)%float) by reflexivity.
  reflexivity.
Qed.

(** The same for every location, observation and log-scale below the
    underflow point: [logpdf] answers nan because the scale is not
    positive. *)
Lemma score_nan_below_underflow (np_exp np_log : float -> float)
    (p0 p1 y : float) :
  F64.underflows np_exp ->
  (p1 <? -746)%float = true ->
  F64.score np_exp np_log (F64.__init__ np_exp p0 p1) [y] = [nan].
Proof.
  intros Hu Hp. unfold F64.score, F64.__init__, F64.logpdf.
  cbn [F64.loc F64.scale map]. rewrite (Hu p1 Hp). reflexivity.
Qed.

(** C5, as stated, fails: with log-scale = -1000 the binary64 score is not
    finite, whatever C library computes [np.exp] and [np.log]. *)
Lemma score_not_finite_for_small_scale :
  ~ (forall np_exp np_log : float -> float,
       F64.underflows np_exp ->
       forall p0 p1 y : float,
         F64.all_finite
           (F64.score np_exp np_log (F64.__init__ np_exp p0 p1) [y])
         = true).
Proof.
  intros H.
  set (flush := fun x : float => if (x <? -746)%float then 0%float else 1%float).
  assert (Hu : F64.underflows flush).
  { intros x Hx. unfold flush. rewrite Hx. reflexivity. }
  specialize (H flush (fun x => x) Hu 0%float (-1000)%float 0%float).
  rewrite score_nan_on_underflow in H by exact Hu.
  discriminate H.
Qed.

(** ** Sampling *)

Section SampleFacts.

Context {G : Type} (rvs : scipy.rv_frozen -> state G R).

Lemma comprehension_length (d : scipy.rv_frozen) (n : nat) (g : G) :
  length (comprehension G rvs d n g).1 = n.
Proof.
  revert g. induction n as [| n IH]; intros g; [reflexivity |].
  cbn [comprehension]. unfold mbind, state_bind, mret, state_ret.
  destruct (rvs d g) as [x g1]. specialize (IH g1).
  destruct (comprehension G rvs d n g1) as [xs g2]. cbn in *. lia.
Qed.

(** Drawing [m + n] values is drawing [m] and then [n] from where the
    first run left the generator. *)
Lemma comprehension_app (d : scipy.rv_frozen) (m n : nat) (g : G) :
  comprehension G rvs d (m + n) g
  = let '(xs, g1) := comprehension G rvs d m g in
    let '(ys, g2) := comprehension G rvs d n g1 in
    (xs ++ ys, g2).
Proof.
  revert g. induction m as [| m IH]; intros g.
  - cbn. destruct (comprehension G rvs d n g). reflexivity.
  - cbn [Nat.add comprehension]. unfold mbind, state_bind, mret, state_ret.
    destruct (rvs d g) as [x g1]. rewrite IH.
    destruct (comprehension G rvs d m g1) as [xs g2].
    destruct (comprehension G rvs d n g2) as [ys g3]. reflexivity.
Qed.

End SampleFacts.

Lemma after_add (G : Type) (rvs : scipy.rv_frozen -> state G R)
    (d : scipy.rv_frozen) (m n : nat) (g : G) :
  after G rvs d (m + n) g = after G rvs d n (after G rvs d m g).
Proof.
  revert g. induction m as [| m IH]; intros g; [reflexivity |].
  cbn [Nat.add after]. apply IH.
Qed.

Lemma draws_from (G : Type) (rvs : scipy.rv_frozen -> state G R)
    (d : scipy.rv_frozen) (first count : nat) (g : G) :
  draws G rvs d first count g = draws G rvs d 0 count (after G rvs d first g).
Proof.
  unfold draws.
  replace (seq first count) with (map (Nat.add first) (seq 0 count)).
  - rewrite map_map. apply map_ext. intros i. rewrite after_add. reflexivity.
  - change (Nat.add first <$> seq 0 count = seq first count).
    rewrite fmap_add_seq, Nat.add_0_r. reflexivity.
Qed.

(** The comprehension returns, in order, the values of the next [n] calls
    of [rvs()] and leaves the generator after these calls. *)
Lemma comprehension_draws (G : Type) (rvs : scipy.rv_frozen -> state G R)
    (d : scipy.rv_frozen) (n : nat) (g : G) :
  comprehension G rvs d n g = (draws G rvs d 0 n g, after G rvs d n g).
Proof.
  revert g. induction n as [| n IH]; intros g; [reflexivity |].
  cbn [comprehension]. unfold mbind, state_bind, mret, state_ret.
  destruct (rvs d g) as [x g1] eqn:E. rewrite IH.
  cbn [after]. rewrite E. cbn [snd]. f_equal.
  unfold draws. cbn [seq map after]. rewrite E. cbn [fst]. f_equal.
  rewrite <- seq_shift, map_map. apply map_ext. intros i.
  cbn [after]. rewrite E. reflexivity.
Qed.

(** C6, as the code has it.  [sample(self, m)] takes no random source.
    For [m >= 0] its values are, in order, the next [m] values that
    [rvs()] draws from the process-wide generator, and the generator is
    left advanced by exactly these [m] draws.  A second run on the same
    instance returns the draws that follow in the stream: a run of [m]
    followed by a run of [n] yields what one run of [m + n] yields. *)
Theorem sample_continues_global_stream
    (G : Type) (rvs : scipy.rv_frozen -> state G R)
    (self : Laplace) (m n : Z) (g : G) :
  (0 <= m)%Z -> (0 <= n)%Z ->
  sample G rvs self m g
  = (draws G rvs (dist self) 0 (Z.to_nat m) g,
     after G rvs (dist self) (Z.to_nat m) g)
  /\ sample G rvs self n (after G rvs (dist self) (Z.to_nat m) g)
     = (draws G rvs (dist self) (Z.to_nat m) (Z.to_nat n) g,
        after G rvs (dist self) (Z.to_nat m + Z.to_nat n) g)
  /\ length (draws G rvs (dist self) 0 (Z.to_nat m) g) = Z.to_nat m
  /\ sample G rvs self (m + n) g
     = (draws G rvs (dist self) 0 (Z.to_nat m) g
        ++ draws G rvs (dist self) (Z.to_nat m) (Z.to_nat n) g,
        after G rvs (dist self) (Z.to_nat m + Z.to_nat n) g).
Proof.
  intros Hm Hn. unfold sample.
  rewrite Z2Nat.inj_add by assumption.
  rewrite !comprehension_draws.
  rewrite (draws_from G rvs (dist self) (Z.to_nat m) (Z.to_nat n) g).
  rewrite <- after_add.
  split; [reflexivity |]. split; [reflexivity |]. split.
  - unfold draws. rewrite length_map, length_seq. reflexivity.
  - pose proof (comprehension_app rvs (dist self) (Z.to_nat m) (Z.to_nat n) g)
      as Happ.
    rewrite !comprehension_draws in Happ. rewrite <- after_add in Happ.
    exact Happ.
Qed.

Lemma sample_continues_global_stream_witness :
  sample Z counter_rvs (mkLaplace [0; 0] 0 0 1 (scipy.frozen 0 1)) 1 0%Z
  = (draws Z counter_rvs (scipy.frozen 0 1) 0 (Z.to_nat 1) 0%Z,
     after Z counter_rvs (scipy.frozen 0 1) (Z.to_nat 1) 0%Z)
  /\ sample Z counter_rvs (mkLaplace [0; 0] 0 0 1 (scipy.frozen 0 1)) 2
       (after Z counter_rvs (scipy.frozen 0 1) (Z.to_nat 1) 0%Z)
     = (draws Z counter_rvs (scipy.frozen 0 1) (Z.to_nat 1) (Z.to_nat 2) 0%Z,
        after Z counter_rvs (scipy.frozen 0 1) (Z.to_nat 1 + Z.to_nat 2) 0%Z)
  /\ length (draws Z counter_rvs (scipy.frozen 0 1) 0 (Z.to_nat 1) 0%Z)
     = Z.to_nat 1
  /\ sample Z counter_rvs (mkLaplace [0; 0] 0 0 1 (scipy.frozen 0 1)) (1 + 2) 0%Z
     = (draws Z counter_rvs (scipy.frozen 0 1) 0 (Z.to_nat 1) 0%Z
        ++ draws Z counter_rvs (scipy.frozen 0 1) (Z.to_nat 1) (Z.to_nat 2) 0%Z,
        after Z counter_rvs (scipy.frozen 0 1) (Z.to_nat 1 + Z.to_nat 2) 0%Z).
Proof.
  apply (sample_continues_global_stream Z counter_rvs
           (mkLaplace [0; 0] 0 0 1 (scipy.frozen 0 1)) 1 2 0%Z); lia.
Defined.

(** C6, as stated, fails: two runs of [sample(m)] on one instance, with
    nothing else passed in, need not return the same sequence, because the
    second run starts from the generator state the first one left. *)
Lemma sample_runs_differ :
  ~ (forall (G : Type) (rvs : scipy.rv_frozen -> state G R)
            (self : Laplace) (m : Z) (g : G),
       (sample G rvs self m (sample G rvs self m g).2).1
       = (sample G rvs self m g).1).
Proof.
  intros H.
  specialize (H Z counter_rvs (mkLaplace [0; 0] 0 0 1 (scipy.frozen 0 1)) 1%Z 0%Z).
  cbn in H. injection H as H. change (0 + 1)%Z with 1%Z in H. lra.
Qed.

(** ** Attribute access on a Laplace instance *)

Lemma mro_lookup_app_Some (l1 l2 : list py.class) (name : string)
    (found : string * py.member) :
  py.mro_lookup l1 name = Some found ->
  py.mro_lookup (l1 ++ l2) name = Some found.
Proof.
  induction l1 as [| c l1 IH]; [discriminate |].
  cbn [app py.mro_lookup]. destruct (py.namespace c !! name); [trivial | exact IH].
Qed.

Lemma Laplace_defines_getattr (distn_bases : list py.class) :
  py.mro_lookup (py.Laplace_mro distn_bases) "__getattr__"
  = Some ("Laplace"%string, py.Function).
Proof. reflexivity. Qed.

(** C9.  A name bound neither in the instance dictionary, nor by [Laplace]
    or a class it inherits from, nor listed by [dir] of the wrapped
    object [self.dist], reads as [None]: the access returns (two nested
    lookups suffice) and raises nothing. *)
Theorem missing_attribute_reads_None
    (dir : py.value -> list string) (distn_bases : list py.class)
    (self : Laplace) (name : string) (d : py.value) (fuel : nat) :
  py.__dict__ self !! name = None ->
  py.mro_lookup (py.Laplace_mro distn_bases) name = None ->
  py.getattribute (py.Laplace_mro distn_bases) self "dist" = Ok d ->
  name ∉ dir d ->
  py.getattribute (py.Laplace_mro distn_bases) self name = Raise AttributeError
  /\ py.getattr dir (S (S fuel)) (py.Laplace_mro distn_bases) self name
     = Some (Ok py.VNone).
Proof.
  intros Hdict Hmro Hdist Hdir.
  assert (Hraise : py.getattribute (py.Laplace_mro distn_bases) self name
                   = Raise AttributeError).
  { unfold py.getattribute. rewrite Hmro, Hdict. reflexivity. }
  split; [exact Hraise |].
  cbn [py.getattr]. rewrite Hraise, Laplace_defines_getattr, Hdist.
  rewrite bool_decide_eq_false_2 by exact Hdir. reflexivity.
Qed.

Lemma missing_attribute_reads_None_witness :
  py.getattribute
    (py.Laplace_mro [py.mkClass "RegressionDistn" (<["predict" := py.Function]> ∅)])
    (mkLaplace [0; 0] 0 0 1 (scipy.frozen 0 1)) "mena"
  = Raise AttributeError
  /\ py.getattr (fun _ => ["mean"; "logpdf"; "rvs"]%string) 2
       (py.Laplace_mro [py.mkClass "RegressionDistn" (<["predict" := py.Function]> ∅)])
       (mkLaplace [0; 0] 0 0 1 (scipy.frozen 0 1)) "mena"
     = Some (Ok py.VNone).
Proof.
  apply (missing_attribute_reads_None
           (fun _ => ["mean"; "logpdf"; "rvs"]%string)
           [py.mkClass "RegressionDistn" (<["predict" := py.Function]> ∅)]
           (mkLaplace [0; 0] 0 0 1 (scipy.frozen 0 1)) "mena"
           (py.VFrozen (scipy.frozen 0 1)) 0).
  - reflexivity.
  - reflexivity.
  - reflexivity.
  - intros H. repeat (apply elem_of_cons in H as [H | H]; [discriminate H |]).
    inversion H.
Defined.

Lemma instance_attributes_dict (self : Laplace) (name : string) :
  name ∉ py.instance_attributes <-> py.__dict__ self !! name = None.
Proof.
  unfold py.instance_attributes, py.__dict__. split.
  - intros H. repeat (apply not_elem_of_cons in H as [? H]).
    repeat (rewrite lookup_insert_ne by congruence). apply lookup_empty.
  - intros H Hin.
    repeat (apply elem_of_cons in Hin as [-> | Hin]; [discriminate H |]).
    inversion Hin.
Qed.

Lemma evaluation_methods_not_instance_attributes (name : string) :
  name ∈ py.evaluation_methods -> name ∉ py.instance_attributes.
Proof.
  unfold py.evaluation_methods, py.instance_attributes. intros H Hin.
  repeat (apply elem_of_cons in H as [-> | H];
          [repeat (apply elem_of_cons in Hin as [Hin | Hin];
                   [discriminate Hin |]); inversion Hin |]).
  inversion H.
Qed.

(** C8, as the code has it.  On the fused type a name that a class of the
    score implementation binds to a function resolves to that function
    whenever it is not one of the five names [Laplace.__init__] assigns on
    the instance; this covers [score], [d_score] and [metric].  It does so
    whatever the distribution classes bind the name to and whatever [dir]
    lists for the wrapped object: the forwarding in [__getattr__] is not
    reached.  A score method named like one of the five instance
    attributes is shadowed: the access yields the instance attribute. *)
Theorem score_methods_take_precedence
    (dir : py.value -> list string) (score_bases distn_bases : list py.class)
    (self : Laplace) (name c : string) (fuel : nat) :
  py.mro_lookup (py.LaplaceLogScore_class :: score_bases) name
  = Some (c, py.Function) ->
  (name ∈ py.evaluation_methods -> name ∉ py.instance_attributes)
  /\ (name ∉ py.instance_attributes ->
      py.getattr dir (S fuel) (py.Fused_mro score_bases distn_bases) self name
      = Some (Ok (py.VMethod c name)))
  /\ (name ∈ py.instance_attributes ->
      exists v,
        py.__dict__ self !! name = Some v
        /\ py.getattr dir (S fuel) (py.Fused_mro score_bases distn_bases)
             self name
           = Some (Ok v)).
Proof.
  intros Hscore.
  assert (Hget : py.getattribute (py.Fused_mro score_bases distn_bases)
                   self name
                 = match py.__dict__ self !! name with
                   | Some v => Ok v
                   | None => Ok (py.VMethod c name)
                   end).
  { unfold py.getattribute, py.Fused_mro.
    rewrite (mro_lookup_app_Some _ _ _ _ Hscore). reflexivity. }
  split; [apply evaluation_methods_not_instance_attributes |]. split.
  - intros Hname. apply instance_attributes_dict with (self := self) in Hname.
    cbn [py.getattr]. rewrite Hget, Hname. reflexivity.
  - intros Hname.
    destruct (py.__dict__ self !! name) as [v |] eqn:E.
    + exists v. split; [reflexivity |].
      cbn [py.getattr]. rewrite Hget, ?E. reflexivity.
    + apply instance_attributes_dict in E. contradiction.
Qed.

Lemma score_methods_take_precedence_witness :
  py.getattr (fun _ => ["mean"; "metric"]%string) 1
    (py.Fused_mro
       [py.mkClass "LogScore" (<["metric" := py.Function]> ∅)]
       [py.mkClass "RegressionDistn" (<["metric" := py.ClassAttr]> ∅)])
    (mkLaplace [0; 0] 0 0 1 (scipy.frozen 0 1)) "metric"
  = Some (Ok (py.VMethod "LogScore" "metric")).
Proof.
  apply (score_methods_take_precedence
           (fun _ => ["mean"; "metric"]%string)
           [py.mkClass "LogScore" (<["metric" := py.Function]> ∅)]
           [py.mkClass "RegressionDistn" (<["metric" := py.ClassAttr]> ∅)]
           (mkLaplace [0; 0] 0 0 1 (scipy.frozen 0 1))
           "metric" "LogScore" 0).
  - reflexivity.
  - intros H. unfold py.instance_attributes in H.
    repeat (apply elem_of_cons in H as [H | H]; [discriminate H |]).
    inversion H.
Defined.

(** C8, as stated, fails: when the score implementation has a method named
    [scale], reading [scale] on the fused object yields the number that
    [Laplace.__init__] stored on the instance, not the score's method. *)
Lemma score_method_shadowed_by_instance_attribute :
  ~ (forall (dir : py.value -> list string)
            (score_bases distn_bases : list py.class)
            (self : Laplace) (name c : string) (fuel : nat),
       py.mro_lookup (py.LaplaceLogScore_class :: score_bases) name
       = Some (c, py.Function) ->
       py.getattr dir (S fuel) (py.Fused_mro score_bases distn_bases)
         self name
       = Some (Ok (py.VMethod c name))).
Proof.
  intros H.
  specialize (H (fun _ => [])
                [py.mkClass "LogScore" (<["scale" := py.Function]> ∅)]
                []
                (mkLaplace [0; 0] 0 0 1 (scipy.frozen 0 1))
                "scale" "LogScore" 0%nat eq_refl).
  cbn in H. discriminate H.
Qed.

(** * Further properties of the two classes *)

(** ** Shape and columns of the gradient *)

Lemma column_of_rows {A : Type} (f g : A -> R) (Y : list A) :
  np.column 0 (map (fun y => [f y; g y]) Y) = map f Y
  /\ np.column 1 (map (fun y => [f y; g y]) Y) = map g Y.
Proof.
  unfold np.column. split; induction Y as [| y Y IH]; cbn; congruence.
Qed.

(** X1.  [score] returns one value per observation and [d_score] one row
    of [n_params] entries per observation; on an empty observation vector
    both return an empty array. *)
Theorem score_and_gradient_follow_observations (self : Laplace) (Y : list R) :
  length (score self Y) = length Y
  /\ length (d_score self Y) = length Y
  /\ Forall (fun row => length row = n_params) (d_score self Y)
  /\ score self [] = []
  /\ d_score self [] = [].
Proof.
  split; [| split; [| split; [| split]]].
  - unfold score, scipy.logpdf. rewrite !length_map. reflexivity.
  - rewrite d_score_rows. apply length_map.
  - rewrite d_score_rows. apply Forall_forall. intros row Hrow.
    apply list_elem_of_In, in_map_iff in Hrow. destruct Hrow as [y [<- _]].
    reflexivity.
  - reflexivity.
  - reflexivity.
Qed.

(** X2.  [d_score] never reads [self.loc]: two parameter vectors with the
    same log-scale give the same gradient matrix on every [Y], whatever
    their locations. *)
Theorem d_score_ignores_loc (p0 p0' p1 : R) (Y : list R) :
  exists self self',
    __init__ [p0; p1] = Ok self
    /\ __init__ [p0'; p1] = Ok self'
    /\ d_score self Y = d_score self' Y.
Proof.
  do 2 eexists. split; [apply init_two |]. split; [apply init_two |].
  rewrite !d_score_rows. reflexivity.
Qed.

(** X3.  The two definitions of [d_score] in the guide agree on column 1
    and are each other's negation on column 0, for every instance and
    every [Y]. *)
Theorem d_score_definitions_differ_by_sign (self : Laplace) (Y : list R) :
  np.column 1 (d_score self Y) = np.column 1 (d_score_first self Y)
  /\ np.column 0 (d_score self Y)
     = map Ropp (np.column 0 (d_score_first self Y)).
Proof.
  rewrite d_score_rows, d_score_first_rows.
  destruct (column_of_rows
              (fun y => (- np.sign (logscale self - y)) / scale self)
              (fun y => 1 - Rabs (logscale self - y) / scale self) Y)
    as [H0 H1].
  destruct (column_of_rows
              (fun y => np.sign (logscale self - y) / scale self)
              (fun y => 1 - Rabs (logscale self - y) / scale self) Y)
    as [F0 F1].
  rewrite H0, H1, F0, F1. split; [reflexivity |].
  rewrite map_map. apply map_ext. intros y. unfold Rdiv. lra.
Qed.

Lemma sign_cases (x : R) : np.sign x = -1 \/ np.sign x = 0 \/ np.sign x = 1.
Proof.
  unfold np.sign. destruct (Rlt_dec x 0); [auto |].
  destruct (Rlt_dec 0 x); auto.
Qed.

(** X4.  Over the reals, where the scale the constructor computes is
    positive: on an instance built by the constructor every row of
    [d_score] is a pair (a, b) with a one of -1/scale, 0, 1/scale and b at
    most 1. *)
Theorem d_score_entries_bounded (ps : list R) (self : Laplace) (Y : list R) :
  __init__ ps = Ok self ->
  Forall (fun row => exists a b,
            row = [a; b]
            /\ (a = - / scale self \/ a = 0 \/ a = / scale self)
            /\ Rabs a <= / scale self
            /\ b <= 1)
         (d_score self Y).
Proof.
  intros Hinit.
  assert (Hpos : 0 < scale self).
  { unfold __init__ in Hinit.
    destruct (np.item ps 0) as [p0 |]; [| discriminate Hinit].
    destruct (np.item ps 1) as [p1 |]; [| discriminate Hinit].
    cbn in Hinit. injection Hinit as <-. cbn [scale]. apply exp_pos. }
  assert (Hinv : 0 < / scale self) by (apply Rinv_0_lt_compat; exact Hpos).
  rewrite d_score_rows. apply Forall_forall. intros row Hrow.
  apply list_elem_of_In, in_map_iff in Hrow. destruct Hrow as [y [<- _]].
  do 2 eexists. split; [reflexivity |].
  unfold Rdiv.
  destruct (sign_cases (logscale self - y)) as [-> | [-> | ->]].
  - split; [right; right; lra |]. split.
    + rewrite Rabs_pos_eq; lra.
    + pose proof (Rabs_pos (logscale self - y)). nra.
  - split; [right; left; lra |]. split.
    + replace (- 0 * / scale self) with 0 by lra. rewrite Rabs_R0. lra.
    + pose proof (Rabs_pos (logscale self - y)). nra.
  - split; [left; lra |]. split.
    + rewrite <- Ropp_mult_distr_l, Rabs_Ropp, Rmult_1_l, Rabs_pos_eq; lra.
    + pose proof (Rabs_pos (logscale self - y)). nra.
Qed.

Lemma d_score_entries_bounded_witness :
  exists self,
    __init__ [0; 0] = Ok self
    /\ Forall (fun row => exists a b,
                 row = [a; b]
                 /\ (a = - / scale self \/ a = 0 \/ a = / scale self)
                 /\ Rabs a <= / scale self
                 /\ b <= 1)
              (d_score self [1; 2]).
Proof.
  eexists. split; [apply init_two |].
  apply (d_score_entries_bounded [0; 0]). apply init_two.
Defined.

(** ** The score as a function of the observation *)

(** X5.  On an instance built from (loc, log-scale) the score of one
    observation is never below log 2 + log-scale, attains that value
    exactly at the location, and is symmetric around the location. *)
Theorem score_minimal_and_symmetric_at_loc
    (p0 p1 : R) (self : Laplace) (y delta : R) :
  __init__ [p0; p1] = Ok self ->
  exists v,
    score self [y] = [v]
    /\ ln 2 + p1 <= v
    /\ (v = ln 2 + p1 <-> y = p0)
    /\ score self [p0 + delta] = score self [p0 - delta].
Proof.
  intros Hinit. exists (nll p0 p1 y).
  rewrite !(score_nll p0 p1 self) by exact Hinit. cbn [map].
  assert (He : 0 < / exp p1) by (apply Rinv_0_lt_compat, exp_pos).
  pose proof (Rabs_pos (y - p0)) as Ha.
  unfold nll, Rdiv. split; [reflexivity |]. split; [nra |]. split.
  - split.
    + intros Hv.
      assert (Hz : Rabs (y - p0) = 0) by nra.
      destruct (Req_dec (y - p0) 0) as [H0 | H0]; [lra |].
      apply Rabs_no_R0 in H0. contradiction.
    + intros ->. rewrite Rminus_diag, Rabs_R0. lra.
  - do 3 f_equal.
    replace (p0 + delta - p0) with delta by lra.
    replace (p0 - delta - p0) with (- delta) by lra.
    rewrite Rabs_Ropp. reflexivity.
Qed.

Lemma score_minimal_and_symmetric_at_loc_witness :
  exists self v,
    __init__ [1; 0] = Ok self
    /\ score self [3] = [v]
    /\ ln 2 + 0 <= v
    /\ (v = ln 2 + 0 <-> 3 = 1)
    /\ score self [1 + 2] = score self [1 - 2].
Proof.
  eexists.
  destruct (score_minimal_and_symmetric_at_loc 1 0 _ 3 2 (init_two 1 0))
    as [v Hv].
  exists v. split; [apply init_two | exact Hv].
Defined.

(** ** Construction: errors and round trips *)

(** X6.  The constructor raises [IndexError] exactly on vectors with fewer
    than two entries and raises nothing else; on longer vectors it reads
    entries 0 and 1, ignores the rest, and still stores the whole vector
    in [_params]. *)
Theorem init_fails_only_on_short_vectors (ps : list R) :
  (__init__ ps = Raise IndexError <-> (length ps < 2)%nat)
  /\ (forall e, __init__ ps = Raise e -> e = IndexError)
  /\ (forall self,
        __init__ ps = Ok self ->
        _params self = ps
        /\ __init__ (take 2 ps)
           = Ok (mkLaplace (take 2 ps) (loc self) (logscale self)
                   (scale self) (dist self))).
Proof.
  destruct ps as [| p0 [| p1 rest]].
  - cbn. repeat split; try lia; intros; try discriminate; congruence.
  - cbn. repeat split; try lia; intros; try discriminate; congruence.
  - change (__init__ (p0 :: p1 :: rest))
      with (Ok (mkLaplace (p0 :: p1 :: rest) p0 p1 (exp p1)
                  (scipy.frozen p0 (exp p1)))).
    split; [| split].
    + split; [discriminate | cbn [length]; lia].
    + intros e He. discriminate He.
    + intros self [= <-]. split; reflexivity.
Qed.

Lemma init_fails_only_on_short_vectors_witness :
  __init__ [5] = Raise IndexError
  /\ exists self, __init__ [5; 0; 7] = Ok self /\ _params self = [5; 0; 7].
Proof.
  split.
  - apply (proj1 (init_fails_only_on_short_vectors [5])). cbn. lia.
  - eexists. split; [reflexivity |].
    apply (proj2 (proj2 (init_fails_only_on_short_vectors [5; 0; 7]))).
    reflexivity.
Defined.

Lemma params_lookup_loc (self : Laplace) :
  params self !! "loc" = Some (loc self).
Proof. reflexivity. Qed.

Lemma params_lookup_scale (self : Laplace) :
  params self !! "scale" = Some (scale self).
Proof. reflexivity. Qed.

(** X7.  Reading the user-facing parameters of a constructed instance and
    constructing again from (loc, log(scale)) gives the same instance: the
    internal vector survives the trip through [params]. *)
Theorem params_then_init_round_trip (p0 p1 l b : R) (self : Laplace) :
  __init__ [p0; p1] = Ok self ->
  params self !! "loc" = Some l ->
  params self !! "scale" = Some b ->
  0 < b /\ __init__ [l; ln b] = Ok self.
Proof.
  rewrite init_two. intros [= <-].
  rewrite params_lookup_loc, params_lookup_scale. cbn [loc scale].
  intros Hl Hb. injection Hl as <-. injection Hb as <-.
  split; [apply exp_pos |].
  rewrite init_two, ln_exp. reflexivity.
Qed.

Lemma params_then_init_round_trip_witness :
  exists self,
    __init__ [3; 0] = Ok self
    /\ 0 < exp 0
    /\ __init__ [3; ln (exp 0)] = Ok self.
Proof.
  eexists. split; [apply init_two |].
  apply (params_then_init_round_trip 3 0 3 (exp 0) _ (init_two 3 0));
    reflexivity.
Defined.

(** ** Fitting and sampling *)

(** X8.  Over the reals, where exp(log s) = s: when scipy's fit returns
    an estimate (m, s) with s > 0, the vector [Laplace.fit] returns has
    [n_params] finite entries, and a [Laplace] constructed from it has
    loc = m and scale = s as its user-facing parameters. *)
Theorem fit_then_init_recovers_estimate
    (dist_fit : list R -> string + R * R) (Y : list R) (m s : R) :
  dist_fit Y = inr (m, s) ->
  0 < s ->
  exists v ps self,
    fit dist_fit Y = Ok v
    /\ length v = n_params
    /\ finite_array v = Some ps
    /\ __init__ ps = Ok self
    /\ params self = <["scale" := s]> (<["loc" := m]> ∅).
Proof.
  intros Hfit Hs. unfold fit. rewrite Hfit, (log_positive s Hs).
  do 3 eexists. split; [reflexivity |]. split; [reflexivity |].
  split; [reflexivity |]. split; [apply init_two |].
  unfold params. cbn [loc scale]. rewrite exp_ln by exact Hs. reflexivity.
Qed.

Lemma fit_then_init_recovers_estimate_witness :
  exists v ps self,
    fit (fun _ => inr (2, 1)) [1; 3] = Ok v
    /\ length v = n_params
    /\ finite_array v = Some ps
    /\ __init__ ps = Ok self
    /\ params self = <["scale" := 1]> (<["loc" := 2]> ∅).
Proof.
  apply (fit_then_init_recovers_estimate (fun _ => inr (2, 1)) [1; 3] 2 1).
  - reflexivity.
  - lra.
Defined.

(** X9.  A sample count that is zero or negative gives an empty sample and
    leaves the generator where it was. *)
Theorem sample_nonpositive_count_draws_nothing
    (G : Type) (rvs : scipy.rv_frozen -> state G R)
    (self : Laplace) (m : Z) (g : G) :
  (m <= 0)%Z -> sample G rvs self m g = ([], g).
Proof.
  intros Hm. unfold sample.
  replace (Z.to_nat m) with 0%nat by lia. reflexivity.
Qed.

Lemma sample_nonpositive_count_draws_nothing_witness :
  sample Z counter_rvs (mkLaplace [0; 0] 0 0 1 (scipy.frozen 0 1)) (-3) 5%Z
  = ([], 5%Z).
Proof.
  apply (sample_nonpositive_count_draws_nothing Z counter_rvs
           (mkLaplace [0; 0] 0 0 1 (scipy.frozen 0 1)) (-3) 5%Z).
  lia.
Defined.

(** ** Attribute access: forwarding and its limits *)

Lemma getattribute_dist_returns (mro : list py.class) (self : Laplace) :
  exists d, py.getattribute mro self "dist" = Ok d.
Proof.
  unfold py.getattribute.
  destruct (py.mro_lookup mro "dist") as [[c [| getter |]] |]; eauto.
Qed.

(** X10.  A name that ordinary lookup does not find but that [dir] lists
    for the wrapped object [self.dist] is read from that object: this is
    how [mean] and [logpdf] become available on a [Laplace]. *)
Theorem getattr_forwards_to_wrapped_object
    (dir : py.value -> list string) (distn_bases : list py.class)
    (self : Laplace) (name : string) (d : py.value) (fuel : nat) :
  py.__dict__ self !! name = None ->
  py.mro_lookup (py.Laplace_mro distn_bases) name = None ->
  py.getattribute (py.Laplace_mro distn_bases) self "dist" = Ok d ->
  name ∈ dir d ->
  py.getattr dir (S (S fuel)) (py.Laplace_mro distn_bases) self name
  = Some (Ok (py.VForwarded d name)).
Proof.
  intros Hdict Hmro Hdist Hdir.
  cbn [py.getattr]. unfold py.getattribute at 1. rewrite Hmro, Hdict.
  rewrite Laplace_defines_getattr, Hdist.
  rewrite bool_decide_eq_true_2 by exact Hdir. reflexivity.
Qed.

Lemma getattr_forwards_to_wrapped_object_witness :
  py.getattr (fun _ => ["mean"; "logpdf"; "rvs"]%string) 2
    (py.Laplace_mro [py.mkClass "RegressionDistn" (<["predict" := py.Function]> ∅)])
    (mkLaplace [0; 0] 0 0 1 (scipy.frozen 0 1)) "mean"
  = Some (Ok (py.VForwarded (py.VFrozen (scipy.frozen 0 1)) "mean")).
Proof.
  apply (getattr_forwards_to_wrapped_object
           (fun _ => ["mean"; "logpdf"; "rvs"]%string)
           [py.mkClass "RegressionDistn" (<["predict" := py.Function]> ∅)]
           (mkLaplace [0; 0] 0 0 1 (scipy.frozen 0 1)) "mean"
           (py.VFrozen (scipy.frozen 0 1)) 0).
  - reflexivity.
  - reflexivity.
  - reflexivity.
  - apply list_elem_of_here.
Defined.

(** X11.  An attribute the constructor has set is read from the instance
    itself, and the wrapped object is not consulted even when [dir] lists
    the same name for it, unless a class of the hierarchy defines a
    property of that name. *)
Theorem instance_attribute_is_not_forwarded
    (dir : py.value -> list string) (mro : list py.class)
    (self : Laplace) (name : string) (v : py.value) (fuel : nat) :
  py.__dict__ self !! name = Some v ->
  (forall c getter, py.mro_lookup mro name <> Some (c, py.Property getter)) ->
  py.getattr dir (S fuel) mro self name = Some (Ok v).
Proof.
  intros Hdict Hprop. cbn [py.getattr]. unfold py.getattribute.
  destruct (py.mro_lookup mro name) as [[c [| getter |]] |] eqn:E;
    rewrite ?Hdict; try reflexivity.
  exfalso. exact (Hprop c getter eq_refl).
Qed.

Lemma instance_attribute_is_not_forwarded_witness :
  py.getattr (fun _ => ["dist"; "mean"]%string) 1
    (py.Laplace_mro [py.mkClass "RegressionDistn" (<["dist" := py.Function]> ∅)])
    (mkLaplace [0; 0] 0 0 1 (scipy.frozen 0 1)) "dist"
  = Some (Ok (py.VFrozen (scipy.frozen 0 1))).
Proof.
  apply (instance_attribute_is_not_forwarded
           (fun _ => ["dist"; "mean"]%string)
           (py.Laplace_mro
              [py.mkClass "RegressionDistn" (<["dist" := py.Function]> ∅)])
           (mkLaplace [0; 0] 0 0 1 (scipy.frozen 0 1)) "dist"
           (py.VFrozen (scipy.frozen 0 1)) 0).
  - reflexivity.
  - intros c getter H. vm_compute in H. discriminate H.
Defined.

(** X12.  Reading any attribute name on a [Laplace] instance returns a
    value: the access needs at most two nested lookups and never raises,
    so no name is reported as missing. *)
Theorem attribute_access_never_raises
    (dir : py.value -> list string) (distn_bases : list py.class)
    (self : Laplace) (name : string) (fuel : nat) :
  exists v,
    py.getattr dir (S (S fuel)) (py.Laplace_mro distn_bases) self name
    = Some (Ok v).
Proof.
  destruct (getattribute_dist_returns (py.Laplace_mro distn_bases) self)
    as [d Hd].
  assert (Hinner : py.getattr dir (S fuel) (py.Laplace_mro distn_bases)
                     self "dist" = Some (Ok d)).
  { cbn [py.getattr]. rewrite Hd. reflexivity. }
  change (py.getattr dir (S (S fuel)) (py.Laplace_mro distn_bases) self name)
    with (match py.getattribute (py.Laplace_mro distn_bases) self name with
          | Raise AttributeError =>
              match py.mro_lookup (py.Laplace_mro distn_bases) "__getattr__" with
              | Some _ =>
                  match py.getattr dir (S fuel) (py.Laplace_mro distn_bases)
                          self "dist" with
                  | None => None
                  | Some (Raise e) => Some (Raise e)
                  | Some (Ok d) =>
                      if bool_decide (name ∈ dir d)
                      then Some (Ok (py.VForwarded d name))
                      else Some (Ok py.VNone)
                  end
              | None => Some (Raise AttributeError)
              end
          | r => Some r
          end).
  rewrite Hinner, Laplace_defines_getattr.
  destruct (py.getattribute (py.Laplace_mro distn_bases) self name)
    as [v | e] eqn:E.
  - eauto.
  - assert (He : e = AttributeError).
    { unfold py.getattribute in E.
      destruct (py.mro_lookup (py.Laplace_mro distn_bases) name)
        as [[c [| getter |]] |];
        destruct (py.__dict__ self !! name); congruence. }
    subst e. destruct (bool_decide (name ∈ dir d)); eauto.
Qed.

(** ** Where the gradient is the derivative of the score *)

(** X13.  Column 1 of [d_score] is the derivative of the score in the
    log-scale exactly for the observations that are as far from the
    log-scale as from the location. *)
Theorem d_score_logscale_column_exact_iff
    (p0 p1 y : R) (self : Laplace) :
  __init__ [p0; p1] = Ok self ->
  exists b,
    np.column 1 (d_score self [y]) = [b]
    /\ (derivable_pt_lim (fun s => nll p0 s y) p1 b
        <-> Rabs (p1 - y) = Rabs (p0 - y)).
Proof.
  rewrite init_two. intros [= <-].
  exists (1 - Rabs (p1 - y) / exp p1). split.
  - rewrite d_score_rows. reflexivity.
  - pose proof (nll_partial_logscale p0 y p1) as Htrue.
    pose proof (exp_pos p1) as He.
    rewrite (Rabs_minus_sym p0 y). split.
    + intros Hcode.
      pose proof (uniqueness_limite _ _ _ _ Hcode Htrue) as Heq.
      unfold Rdiv in Heq.
      assert (Hm : Rabs (p1 - y) * / exp p1 = Rabs (y - p0) * / exp p1) by lra.
      apply Rmult_eq_reg_r in Hm; [exact Hm |].
      apply Rinv_neq_0_compat. lra.
    + intros ->. exact Htrue.
Qed.

Lemma d_score_logscale_column_exact_iff_witness :
  exists self b,
    __init__ [2; 0] = Ok self
    /\ np.column 1 (d_score self [1]) = [b]
    /\ (derivable_pt_lim (fun s => nll 2 s 1) 0 b
        <-> Rabs (0 - 1) = Rabs (2 - 1)).
Proof.
  eexists.
  destruct (d_score_logscale_column_exact_iff 2 0 1 _ (init_two 2 0))
    as [b Hb].
  exists b. split; [apply init_two | exact Hb].
Defined.

(** X14.  When the location equals the log-scale, the first definition of
    [d_score] returns, for an observation away from the location, the two
    partial derivatives of the score: in loc and in log-scale. *)
Theorem d_score_first_is_gradient_on_diagonal (p y : R) :
  y <> p ->
  exists self a b,
    __init__ [p; p] = Ok self
    /\ d_score_first self [y] = [[a; b]]
    /\ derivable_pt_lim (fun m => nll m p y) p a
    /\ derivable_pt_lim (fun s => nll p s y) p b.
Proof.
  intros Hne. do 3 eexists. split; [apply init_two |].
  split; [rewrite d_score_first_rows; reflexivity |].
  cbn [logscale scale]. split.
  - apply nll_partial_loc. exact Hne.
  - rewrite (Rabs_minus_sym p y). apply nll_partial_logscale.
Qed.

Lemma d_score_first_is_gradient_on_diagonal_witness :
  exists self a b,
    __init__ [0; 0] = Ok self
    /\ d_score_first self [1] = [[a; b]]
    /\ derivable_pt_lim (fun m => nll m 0 1) 0 a
    /\ derivable_pt_lim (fun s => nll 0 s 1) 0 b.
Proof. apply (d_score_first_is_gradient_on_diagonal 0 1). lra. Defined.

(** ** Which score class [Laplace.scores] holds *)

Lemma mapM_lookup_app (h : list nb.class_obj) (o : nb.class_obj)
    (sc : list nat) (l : list nb.class_obj) :
  mapM (fun r => h !! r) sc = Some l ->
  mapM (fun r => (h ++ [o]) !! r) sc = Some l.
Proof.
  revert l. induction sc as [| r sc IH]; intros l H; [exact H |].
  cbn in *. destruct (h !! r) as [x |] eqn:Hr; [| discriminate H].
  cbn in H. destruct (mapM (fun r => h !! r) sc) as [xs |]; [| discriminate H].
  cbn in H. rewrite (lookup_app_l_Some _ _ _ _ Hr). cbn.
  rewrite (IH xs eq_refl). exact H.
Qed.

Lemma exec_keeps_registered_scores
    (k k' : nb.kernel) (s : nb.stmt) (cls : string) (l : list nb.class_obj) :
  nb.exec k s = Ok k' ->
  nb.stmt_name s <> cls ->
  nb.registered_scores k cls = Some l ->
  nb.registered_scores k' cls = Some l.
Proof.
  intros Hexec Hne Hreg.
  assert (Hk : exists o, k' = nb.bind_new k (nb.stmt_name s) o).
  { destruct s as [name | name bases b scores]; cbn in Hexec.
    - injection Hexec as <-. eauto.
    - destruct (nb.names (nb.globals k) bases); [| discriminate Hexec].
      destruct scores as [sl |].
      + destruct (nb.names (nb.globals k) sl); [| discriminate Hexec].
        injection Hexec as <-. eauto.
      + injection Hexec as <-. eauto. }
  destruct Hk as [o ->].
  unfold nb.registered_scores, nb.class_of, nb.bind_new in *. cbn in *.
  rewrite lookup_insert_ne by exact Hne.
  destruct (nb.globals k !! cls) as [r |]; [| discriminate Hreg]. cbn in *.
  destruct (nb.heap k !! r) as [c |] eqn:Hc; [| discriminate Hreg]. cbn in *.
  rewrite (lookup_app_l_Some _ _ _ _ Hc). cbn.
  destruct (nb.co_scores c) as [sc |]; [| discriminate Hreg]. cbn in *.
  apply mapM_lookup_app. exact Hreg.
Qed.

Lemma lookup_app_plus {A : Type} (h l : list A) (i : nat) :
  (h ++ l) !! (length h + i)%nat = l !! i.
Proof. rewrite lookup_app_r by lia. f_equal. lia. Qed.

Ltac heap_norm :=
  repeat rewrite <- app_assoc; cbn [app];
  repeat rewrite length_app; cbn [length];
  repeat match goal with
    | |- context [(?h ++ ?l) !! (length ?h + ?i)%nat] =>
        rewrite (lookup_app_plus h l i)
    | |- context [(?h ++ ?l) !! (length ?h)] =>
        replace ((h ++ l) !! length h) with ((h ++ l) !! (length h + 0)%nat)
          by (f_equal; lia);
        rewrite (lookup_app_plus h l 0)
    end.

Ltac run_cell :=
  cbn [nb.run mbind result_bind]; unfold nb.exec, nb.names; cbn;
  simplify_map_eq; cbn; try reflexivity.

(** X15.  Statements that bind other names leave [cls.scores] as it is:
    the list keeps the objects it was built with, also when one of their
    names is bound to a new class afterwards. *)
Theorem rebinding_keeps_registered_scores
    (prog : list nb.stmt) (k k' : nb.kernel) (cls : string)
    (l : list nb.class_obj) :
  Forall (fun s => nb.stmt_name s <> cls) prog ->
  nb.run k prog = Ok k' ->
  nb.registered_scores k cls = Some l ->
  nb.registered_scores k' cls = Some l.
Proof.
  intros Hprog. revert k.
  induction Hprog as [| s prog Hs _ IH]; intros k Hrun Hreg.
  - cbn in Hrun. injection Hrun as <-. exact Hreg.
  - cbn in Hrun. destruct (nb.exec k s) as [k1 |] eqn:E; [| discriminate Hrun].
    cbn in Hrun. apply (IH k1 Hrun).
    exact (exec_keeps_registered_scores k k1 s cls l E Hs Hreg).
Qed.

(** X16.  Whatever the kernel held before, running the three class cells
    of the guide in order succeeds.  After the first two, [Laplace.scores]
    still holds the placeholder class although [LaplaceLogScore] names the
    class with the first [d_score]; after the third it holds the class
    with the final [d_score].  The class with the first [d_score] is
    never registered. *)
Theorem guide_registers_final_score (k : nb.kernel) :
  exists k2 k3 k4,
    nb.run k nb.cell_distribution = Ok k2
    /\ nb.run k2 nb.cell_score = Ok k3
    /\ nb.run k3 nb.cell_together = Ok k4
    /\ map nb.co_body <$> nb.registered_scores k2 "Laplace" = Some [nb.Pass]
    /\ nb.co_body <$> nb.class_of k3 "LaplaceLogScore" = Some nb.ScoreFirst
    /\ map nb.co_body <$> nb.registered_scores k3 "Laplace" = Some [nb.Pass]
    /\ nb.co_body <$> nb.class_of k4 "LaplaceLogScore" = Some nb.ScoreFinal
    /\ map nb.co_body <$> nb.registered_scores k4 "Laplace"
       = Some [nb.ScoreFinal].
Proof.
  destruct k as [h g].
  do 3 eexists.
  split; [unfold nb.cell_distribution; run_cell |].
  split; [unfold nb.cell_score; run_cell |].
  split; [unfold nb.cell_together; run_cell |].
  unfold nb.registered_scores, nb.class_of, nb.bind_new. cbn.
  simplify_map_eq. cbn.
  repeat split; repeat (progress (cbn; heap_norm)); reflexivity.
Qed.

Lemma rebinding_keeps_registered_scores_witness :
  exists k2 k3 l,
    nb.run (nb.mkKernel [] ∅) nb.cell_distribution = Ok k2
    /\ nb.run k2 (nb.cell_score ++ nb.cell_spherical) = Ok k3
    /\ nb.registered_scores k2 "Laplace" = Some l
    /\ nb.registered_scores k3 "Laplace" = Some l.
Proof.
  assert (H2 : exists k2,
             nb.run (nb.mkKernel [] ∅) nb.cell_distribution = Ok k2)
    by (eexists; vm_compute; reflexivity).
  destruct H2 as [k2 E2].
  assert (H3 : exists k3,
             nb.run k2 (nb.cell_score ++ nb.cell_spherical) = Ok k3).
  { vm_compute in E2. injection E2 as <-. eexists. vm_compute. reflexivity. }
  destruct H3 as [k3 E3].
  assert (Hl : exists l, nb.registered_scores k2 "Laplace" = Some l).
  { vm_compute in E2. injection E2 as <-. eexists. vm_compute. reflexivity. }
  destruct Hl as [l El].
  exists k2, k3, l. split; [exact E2 |]. split; [exact E3 |].
  split; [exact El |].
  apply (rebinding_keeps_registered_scores
           (nb.cell_score ++ nb.cell_spherical) k2 k3 "Laplace" l).
  - repeat constructor; discriminate.
  - exact E3.
  - exact El.
Defined.
